(** * testAPI.py: credential and connectivity checks for two AI providers

    A shallow embedding of [src/testAPI.py].  The five pytest functions of the
    module are embedded as computations in a small state-and-exception monad
    [Py]: the state is the Python process (its [os.environ] and the log of the
    effects it has had on the outside world), and a computation either returns
    or raises a Python exception.  The vendor packages ([openai], [anthropic])
    are not part of the repository: they are the [World] every check is run
    against. *)

From Stdlib Require Import String Ascii List ZArith Bool Lia.
From stdpp Require Import base strings gmap list.

Local Open Scope string_scope.

(** * The program

    ** Python strings: the [in] operator *)

(** [startswith p s]: [s.startswith(p)]. *)
Fixpoint startswith (p s : string) : bool :=
  match p, s with
  | EmptyString, _ => true
  | String _ _, EmptyString => false
  | String a p', String b s' => if Ascii.eqb a b then startswith p' s' else false
  end.

(** [str_in needle hay]: the Python expression [needle in hay] on two [str]. *)
Fixpoint str_in (needle hay : string) : bool :=
  if startswith needle hay then true
  else match hay with
       | EmptyString => false
       | String _ rest => str_in needle rest
       end.

(** What "[hay] contains the substring [needle]" means. *)
Definition Substring (needle hay : string) : Prop :=
  exists pre post : string, hay = pre ++ needle ++ post.

(** Python truthiness of a [str]: only the empty string is falsy. *)
Definition nonempty (s : string) : bool :=
  match s with
  | EmptyString => false
  | String _ _ => true
  end.

(** ** Python exceptions and results *)

(** A raised exception: the name of its class, whether that class derives
    from [Exception] (what an [except Exception] clause tests; [SystemExit],
    [KeyboardInterrupt], [GeneratorExit] and pytest's outcome exceptions derive
    from [BaseException] only), and [str(e)]. *)
Record PyExc : Type := mkExc {
  exc_class : string;
  exc_is_Exception : bool;
  exc_str : string
}.

(** [assert cond, msg] raises [AssertionError(msg)]. *)
Definition AssertionError (msg : string) : PyExc :=
  mkExc "AssertionError" true msg.

(** [pytest.fail(msg)] raises [Failed(msg)], a [BaseException]. *)
Definition Failed (msg : string) : PyExc :=
  mkExc "Failed" false msg.

(** [l[0]] on an empty list. *)
Definition IndexError : PyExc :=
  mkExc "IndexError" true "list index out of range".

(** ["OK" in None]. *)
Definition TypeError_NoneType : PyExc :=
  mkExc "TypeError" true "argument of type 'NoneType' is not iterable".

(** [block.text] on a content block that has no such attribute. *)
Definition AttributeError_text : PyExc :=
  mkExc "AttributeError" true "object has no attribute 'text'".

Inductive PyResult (A : Type) : Type :=
| Returned (a : A)
| Raised (e : PyExc).
Arguments Returned {A} a.
Arguments Raised {A} e.

(** The outcome pytest records for a test function: it passed when the body
    returned, it failed with the exception the body raised otherwise. *)
Abbreviation Outcome := (PyResult unit).
Abbreviation Passed := (Returned tt).

(** ** The vendor packages *)

(** The keyword arguments both call-checks pass to the vendor's [create]. *)
Record Message : Type := { role : string; content : string }.
Record Request : Type := {
  model : string;
  messages : list Message;
  max_tokens : Z
}.

(** [resp.choices[i].message.content] is an optional [str]. *)
Record Choice : Type := { message_content : option string }.
Record ChatCompletion : Type := { choices : list Choice }.

(** [resp.content[i]] is a block; only a text block has [.text]. *)
Inductive ContentBlock : Type :=
| TextBlock (text : string)
| OtherBlock.
Record AnthropicMessage : Type := { resp_content : list ContentBlock }.

(** [client.chat.completions.create(...)] *)
Record OpenAIClient : Type := {
  chat_completions_create : Request -> PyResult ChatCompletion
}.
(** [from openai import OpenAI]; [OpenAI()] reads [OPENAI_API_KEY]. *)
Record OpenAIModule : Type := {
  OpenAI : option string -> PyResult OpenAIClient
}.

(** [client.messages.create(...)] *)
Record AnthropicClient : Type := {
  messages_create : Request -> PyResult AnthropicMessage
}.
(** [from anthropic import Anthropic]; [Anthropic()] reads
    [ANTHROPIC_API_KEY]. *)
Record AnthropicModule : Type := {
  Anthropic : option string -> PyResult AnthropicClient
}.

(** Everything outside the repository that a run depends on: what loading
    each vendor package gives in this interpreter, and through the loaded
    package what the provider answers. *)
Record World : Type := {
  import_openai : PyResult OpenAIModule;
  import_anthropic : PyResult AnthropicModule
}.

(** ** The Python process *)

(** The effects a check has outside itself, in the order they happen. *)
Inductive Event : Type :=
| EvImport (package : string)
| EvClient (package : string) (key : option string)
| EvChatCompletion (req : Request)
| EvMessagesCreate (req : Request).

Record Proc : Type := {
  environ : gmap string string;
  log : list Event
}.

(** A Python computation: it runs in a process and returns or raises. *)
Definition Py (A : Type) : Type := Proc -> PyResult A * Proc.

Definition ret {A : Type} (a : A) : Py A := fun p => (Returned a, p).

Definition bind {A B : Type} (m : Py A) (k : A -> Py B) : Py B :=
  fun p =>
    match m p with
    | (Returned a, p') => k a p'
    | (Raised e, p') => (Raised e, p')
    end.

Definition raise {A : Type} (e : PyExc) : Py A := fun p => (Raised e, p).

(** [try: body / except Exception as e: handler(e)] *)
Definition try_except_Exception {A : Type}
    (body : Py A) (handler : PyExc -> Py A) : Py A :=
  fun p =>
    match body p with
    | (Returned a, p') => (Returned a, p')
    | (Raised e, p') =>
        if exc_is_Exception e then handler e p' else (Raised e, p')
    end.

#[global] Instance Py_ret : MRet Py := @ret.
#[global] Instance Py_bind : MBind Py := fun A B k m => bind m k.

Definition emit (ev : Event) : Py unit :=
  fun p => (Returned tt, {| environ := environ p; log := log p ++ [ev] |}).

(** The result of a call into vendor code. *)
Definition vendor {A : Type} (r : PyResult A) : Py A := fun p => (r, p).

(** [os.getenv(name)] *)
Definition getenv (name : string) : Py (option string) :=
  fun p => (Returned (environ p !! name), p).

(** Truthiness of what [os.getenv] returns: [None] and [""] are falsy. *)
Definition truthy (v : option string) : bool :=
  match v with
  | None => false
  | Some s => nonempty s
  end.

(** [assert cond, msg] *)
Definition py_assert (cond : bool) (msg : string) : Py unit :=
  if cond then ret tt else raise (AssertionError msg).

(** [pytest.fail(msg)] *)
Definition pytest_fail {A : Type} (msg : string) : Py A := raise (Failed msg).

(** [l[0]] *)
Definition index0 {A : Type} (l : list A) : Py A :=
  match l !! 0%nat with
  | Some x => ret x
  | None => raise IndexError
  end.

(** [needle in x] where [x] is an optional [str]. *)
Definition py_in (needle : string) (x : option string) : Py bool :=
  match x with
  | Some s => ret (str_in needle s)
  | None => raise TypeError_NoneType
  end.

(** [block.text] *)
Definition get_text (b : ContentBlock) : Py string :=
  match b with
  | TextBlock t => ret t
  | OtherBlock => raise AttributeError_text
  end.

(** [load_dotenv()]: variables of the [.env] file are added to [os.environ],
    a variable already set keeps its value. *)
Definition load_dotenv (dotenv : gmap string string) : Py unit :=
  fun p => (Returned tt, {| environ := environ p ∪ dotenv; log := log p |}).

(** ** The checks of [testAPI.py] *)

Definition test_openai_key_present : Py unit :=
  v ← getenv "OPENAI_API_KEY";
  py_assert (truthy v) "OPENAI_API_KEY is not set in this environment".

Definition openai_request : Request :=
  {| model := "gpt-4o-mini";
     messages := [ {| role := "user"; content := "Say OK" |} ];
     max_tokens := 5 |}.

Definition test_openai_call (w : World) : Py unit :=
  emit (EvImport "openai");;
  m ← vendor (import_openai w);
  key ← getenv "OPENAI_API_KEY";
  emit (EvClient "openai" key);;
  client ← vendor (OpenAI m key);
  emit (EvChatCompletion openai_request);;
  resp ← vendor (chat_completions_create client openai_request);
  c ← index0 (choices resp);
  b ← py_in "OK" (message_content c);
  py_assert b "".

Definition test_anthropic_installed (w : World) : Py unit :=
  try_except_Exception
    (emit (EvImport "anthropic");;
     vendor (import_anthropic w);;
     ret tt)
    (fun e =>
       pytest_fail
         ("anthropic package not installed in this interpreter: " ++ exc_str e)).

Definition test_anthropic_key_present : Py unit :=
  v ← getenv "ANTHROPIC_API_KEY";
  py_assert (truthy v) "ANTHROPIC_API_KEY is not set in this environment".

Definition anthropic_request : Request :=
  {| model := "claude-3-haiku-20240307";
     messages := [ {| role := "user"; content := "Say OK" |} ];
     max_tokens := 5 |}.

Definition test_anthropic_call (w : World) : Py unit :=
  emit (EvImport "anthropic");;
  m ← vendor (import_anthropic w);
  key ← getenv "ANTHROPIC_API_KEY";
  emit (EvClient "anthropic" key);;
  client ← vendor (Anthropic m key);
  emit (EvMessagesCreate anthropic_request);;
  resp ← vendor (messages_create client anthropic_request);
  b ← index0 (resp_content resp);
  t ← get_text b;
  py_assert (str_in "OK" t) "".

(** ** Running the checks *)

Inductive Provider : Type := ProvOpenAI | ProvAnthropic.

(** The checks of the module, by what they verify. *)
Inductive Check : Type :=
| KeyPresent (pr : Provider)
| CallSucceeds (pr : Provider)
| LibraryAvailable.

Definition check_body (w : World) (c : Check) : Py unit :=
  match c with
  | KeyPresent ProvOpenAI => test_openai_key_present
  | CallSucceeds ProvOpenAI => test_openai_call w
  | LibraryAvailable => test_anthropic_installed w
  | KeyPresent ProvAnthropic => test_anthropic_key_present
  | CallSucceeds ProvAnthropic => test_anthropic_call w
  end.

(** The credential variable of a provider. *)
Definition credential (pr : Provider) : string :=
  match pr with
  | ProvOpenAI => "OPENAI_API_KEY"
  | ProvAnthropic => "ANTHROPIC_API_KEY"
  end.

Definition outcome (t : Py unit) (p : Proc) : Outcome := fst (t p).

(** The process a run starts in: the environment, and nothing done yet. *)
Definition start (env : gmap string string) : Proc :=
  {| environ := env; log := [] |}.

(** The runner calls the test functions one after the other in the same
    process and records each outcome; a failure does not stop the run. *)
Fixpoint run_tests (ts : list (Py unit)) (p : Proc) : list Outcome * Proc :=
  match ts with
  | [] => ([], p)
  | t :: ts' =>
      let (o, p') := t p in
      let (os, p'') := run_tests ts' p' in
      (o :: os, p'')
  end.

(** The test functions of the module in the order they are declared. *)
Definition collected (w : World) : list (Py unit) :=
  [ test_openai_key_present; test_openai_call w; test_anthropic_installed w;
    test_anthropic_key_present; test_anthropic_call w ].

Definition session (w : World) : Proc -> list Outcome * Proc :=
  run_tests (collected w).

(** The requests a log records as sent to each provider. *)
Definition is_openai_request (ev : Event) : bool :=
  match ev with EvChatCompletion _ => true | _ => false end.
Definition is_anthropic_request (ev : Event) : bool :=
  match ev with EvMessagesCreate _ => true | _ => false end.
Definition is_anthropic_client (ev : Event) : bool :=
  match ev with
  | EvClient pkg _ => String.eqb pkg "anthropic"
  | _ => false
  end.

(** ** Some worlds *)

Module Worlds.

Definition ok_completion : ChatCompletion :=
  {| choices := [ {| message_content := Some "OK" |} ] |}.
Definition ok_message : AnthropicMessage :=
  {| resp_content := [ TextBlock "OK." ] |}.

Definition AuthenticationError : PyExc :=
  mkExc "AuthenticationError" true "Error code: 401 - invalid x-api-key".
Definition OpenAIError : PyExc :=
  mkExc "OpenAIError" true
    "The api_key client option must be set either by passing api_key to the client or by setting the OPENAI_API_KEY environment variable".
Definition ModuleNotFoundError : PyExc :=
  mkExc "ModuleNotFoundError" true "No module named 'anthropic'".
Definition ValueError : PyExc :=
  mkExc "ValueError" true "unsupported interpreter".
Definition SystemExit : PyExc :=
  mkExc "SystemExit" false "1".

(** A stub provider: it answers "OK" to every request, whatever the key. *)
Definition stub_openai : OpenAIModule :=
  {| OpenAI := fun _ =>
       Returned {| chat_completions_create := fun _ => Returned ok_completion |} |}.
Definition stub_anthropic : AnthropicModule :=
  {| Anthropic := fun _ =>
       Returned {| messages_create := fun _ => Returned ok_message |} |}.
Definition stub : World :=
  {| import_openai := Returned stub_openai;
     import_anthropic := Returned stub_anthropic |}.

(** A provider that checks the key: no client without a key, and a request
    with an empty key is refused. *)
Definition keyed_openai : OpenAIModule :=
  {| OpenAI := fun key =>
       match key with
       | None => Raised OpenAIError
       | Some k =>
           Returned {| chat_completions_create := fun _ =>
             if nonempty k then Returned ok_completion
             else Raised AuthenticationError |}
       end |}.
Definition keyed_anthropic : AnthropicModule :=
  {| Anthropic := fun key =>
       Returned {| messages_create := fun _ =>
         if truthy key then Returned ok_message
         else Raised AuthenticationError |} |}.
Definition keyed : World :=
  {| import_openai := Returned keyed_openai;
     import_anthropic := Returned keyed_anthropic |}.

(** The [anthropic] package is not installed. *)
Definition no_anthropic : World :=
  {| import_openai := Returned keyed_openai;
     import_anthropic := Raised ModuleNotFoundError |}.

(** Loading [anthropic] raises something other than an import error. *)
Definition broken_anthropic : World :=
  {| import_openai := Returned keyed_openai;
     import_anthropic := Raised ValueError |}.

(** Loading [anthropic] exits the interpreter. *)
Definition exiting_anthropic : World :=
  {| import_openai := Returned keyed_openai;
     import_anthropic := Raised SystemExit |}.

Definition both_keys : gmap string string :=
  <["OPENAI_API_KEY" := "sk-test"]> (<["ANTHROPIC_API_KEY" := "sk-ant-test"]> ∅).
Definition empty_openai_key : gmap string string :=
  <["OPENAI_API_KEY" := ""]> (<["ANTHROPIC_API_KEY" := "sk-ant-test"]> ∅).
Definition no_keys : gmap string string := ∅.

End Worlds.

(** ** Vocabulary of the properties *)

(** The process after some more events. *)
Definition after (p : Proc) (evs : list Event) : Proc :=
  {| environ := environ p; log := log p ++ evs |}.

(** What [test_openai_call] does with the response once it has one. *)
Definition openai_verdict (resp : ChatCompletion) : Py unit :=
  c ← index0 (choices resp);
  b ← py_in "OK" (message_content c);
  py_assert b "".

(** What [test_anthropic_call] does with the response once it has one. *)
Definition anthropic_verdict (resp : AnthropicMessage) : Py unit :=
  b ← index0 (resp_content resp);
  t ← get_text b;
  py_assert (str_in "OK" t) "".

(** The provider gives no response to the check's request when the client
    is built with [key]: loading, constructing the client or the request
    fails. *)
Definition refuses (w : World) (pr : Provider) (key : option string) : Prop :=
  match pr with
  | ProvOpenAI =>
      forall m c resp,
        import_openai w = Returned m -> OpenAI m key = Returned c ->
        chat_completions_create c openai_request <> Returned resp
  | ProvAnthropic =>
      forall m c resp,
        import_anthropic w = Returned m -> Anthropic m key = Returned c ->
        messages_create c anthropic_request <> Returned resp
  end.

Definition not_installed_message (e : PyExc) : string :=
  "anthropic package not installed in this interpreter: " ++ exc_str e.

(** The events a run of [t] in process [p] adds to the log. *)
Definition sent (t : Py unit) (p : Proc) : list Event :=
  drop (length (log p)) (log (snd (t p))).

Definition openai_requests (l : list Event) : list Event :=
  filter (fun ev => is_openai_request ev = true) l.

Definition anthropic_requests (l : list Event) : list Event :=
  filter (fun ev => is_anthropic_request ev = true) l.

(** The events a whole session started in process [p] adds to the log. *)
Definition session_sent (w : World) (p : Proc) : list Event :=
  drop (length (log p)) (log (snd (session w p))).

(** The class of the exception a check failed with, if it failed. *)
Definition failure_class (o : Outcome) : option string :=
  match o with
  | Returned _ => None
  | Raised e => Some (exc_class e)
  end.

(** An outcome after which the runner goes on to the next test: a pass, a
    failure with an exception deriving from [Exception], or a [pytest.fail]. *)
Definition carries_on (o : Outcome) : bool :=
  match o with
  | Returned _ => true
  | Raised e => exc_is_Exception e || String.eqb (exc_class e) "Failed"
  end.

Module MoreWorlds.

(** The [openai] package is not installed. *)
Definition no_openai : World :=
  {| import_openai := Raised (mkExc "ModuleNotFoundError" true
                                "No module named 'openai'");
     import_anthropic := Returned Worlds.keyed_anthropic |}.

(** A provider that answers, but not with what was asked for. *)
Definition chatty_openai : OpenAIModule :=
  {| OpenAI := fun _ =>
       Returned {| chat_completions_create := fun _ =>
         Returned {| choices := [ {| message_content := Some "Sure!" |};
                                  {| message_content := Some "OK" |} ] |} |} |}.
Definition chatty_anthropic : AnthropicModule :=
  {| Anthropic := fun _ =>
       Returned {| messages_create := fun _ =>
         Returned {| resp_content := [ TextBlock "Okay"; TextBlock "OK" ] |} |} |}.
Definition chatty : World :=
  {| import_openai := Returned chatty_openai;
     import_anthropic := Returned chatty_anthropic |}.

Definition only_openai_key : gmap string string :=
  <["OPENAI_API_KEY" := "sk-test"]> ∅.

End MoreWorlds.

(** The OpenAI side answers the check's request with a text containing "OK"
    when the client is built with [key]. *)
Definition openai_answers_ok (w : World) (key : option string) : Prop :=
  exists m c resp first txt,
    import_openai w = Returned m /\ OpenAI m key = Returned c
    /\ chat_completions_create c openai_request = Returned resp
    /\ choices resp !! 0%nat = Some first
    /\ message_content first = Some txt /\ Substring "OK" txt.

(** The Anthropic side answers the check's request with a text containing
    "OK" when the client is built with [key]. *)
Definition anthropic_answers_ok (w : World) (key : option string) : Prop :=
  exists m c resp txt,
    import_anthropic w = Returned m /\ Anthropic m key = Returned c
    /\ messages_create c anthropic_request = Returned resp
    /\ resp_content resp !! 0%nat = Some (TextBlock txt)
    /\ Substring "OK" txt.

(** The events of a log that construct an Anthropic client or send it a
    request. *)
Definition anthropic_call_attempts (l : list Event) : list Event :=
  filter (fun ev => is_anthropic_client ev || is_anthropic_request ev = true) l.

Definition package (pr : Provider) : string :=
  match pr with
  | ProvOpenAI => "openai"
  | ProvAnthropic => "anthropic"
  end.

Definition request_event (pr : Provider) : Event :=
  match pr with
  | ProvOpenAI => EvChatCompletion openai_request
  | ProvAnthropic => EvMessagesCreate anthropic_request
  end.

(** The one linear sequence of a call check: load the package, construct the
    client, send the request. *)
Definition call_steps (pr : Provider) (key : option string) : list Event :=
  [ EvImport (package pr); EvClient (package pr) key; request_event pr ].

(** The ways the OpenAI side makes the call check raise [e]: loading the
    package, constructing the client or the request raises [e] (transport,
    authentication, rate limit), or the response is malformed (no choice,
    a first choice without content) and reading it raises [e]. *)
Inductive openai_error (w : World) (key : option string) (e : PyExc) : Prop :=
| OpenAI_load :
    import_openai w = Raised e -> openai_error w key e
| OpenAI_construct (m : OpenAIModule) :
    import_openai w = Returned m -> OpenAI m key = Raised e ->
    openai_error w key e
| OpenAI_request (m : OpenAIModule) (c : OpenAIClient) :
    import_openai w = Returned m -> OpenAI m key = Returned c ->
    chat_completions_create c openai_request = Raised e ->
    openai_error w key e
| OpenAI_no_choice (m : OpenAIModule) (c : OpenAIClient) :
    import_openai w = Returned m -> OpenAI m key = Returned c ->
    chat_completions_create c openai_request = Returned {| choices := [] |} ->
    e = IndexError ->
    openai_error w key e
| OpenAI_no_content (m : OpenAIModule) (c : OpenAIClient) (rest : list Choice) :
    import_openai w = Returned m -> OpenAI m key = Returned c ->
    chat_completions_create c openai_request
    = Returned {| choices := {| message_content := None |} :: rest |} ->
    e = TypeError_NoneType ->
    openai_error w key e.

Inductive anthropic_error (w : World) (key : option string) (e : PyExc) : Prop :=
| Anthropic_load :
    import_anthropic w = Raised e -> anthropic_error w key e
| Anthropic_construct (m : AnthropicModule) :
    import_anthropic w = Returned m -> Anthropic m key = Raised e ->
    anthropic_error w key e
| Anthropic_request (m : AnthropicModule) (c : AnthropicClient) :
    import_anthropic w = Returned m -> Anthropic m key = Returned c ->
    messages_create c anthropic_request = Raised e ->
    anthropic_error w key e
| Anthropic_no_block (m : AnthropicModule) (c : AnthropicClient) :
    import_anthropic w = Returned m -> Anthropic m key = Returned c ->
    messages_create c anthropic_request = Returned {| resp_content := [] |} ->
    e = IndexError ->
    anthropic_error w key e
| Anthropic_no_text (m : AnthropicModule) (c : AnthropicClient)
    (rest : list ContentBlock) :
    import_anthropic w = Returned m -> Anthropic m key = Returned c ->
    messages_create c anthropic_request
    = Returned {| resp_content := OtherBlock :: rest |} ->
    e = AttributeError_text ->
    anthropic_error w key e.

Definition provider_error (w : World) (pr : Provider) (key : option string)
    (e : PyExc) : Prop :=
  match pr with
  | ProvOpenAI => openai_error w key e
  | ProvAnthropic => anthropic_error w key e
  end.

(** ** What a computation reads and writes *)

(** Two processes agree on the environment variables in [V]. *)
Definition agree_on (V : string -> Prop) (p q : Proc) : Prop :=
  forall k, V k -> environ p !! k = environ q !! k.

(** [m] leaves [os.environ] as it found it, and what it returns or raises
    is decided by the variables in [V]: no other part of the process (the
    other variables, what was done before) has a say. *)
Record framed (V : string -> Prop) {A : Type} (m : Py A) : Prop := {
  framed_environ : forall p, environ (snd (m p)) = environ p;
  framed_result : forall p q, agree_on V p q -> fst (m p) = fst (m q)
}.

(** * Properties *)

(** ** Python strings *)

Lemma append_nil (s : string) : "" ++ s = s.
Proof. reflexivity. Qed.

Lemma append_cons (c : ascii) (a b : string) :
  String c a ++ b = String c (a ++ b).
Proof. reflexivity. Qed.

Lemma append_nil_r (s : string) : s ++ "" = s.
Proof.
  induction s as [|c s IH]; [reflexivity |].
  now rewrite append_cons, IH.
Qed.

Lemma append_assoc (a b c : string) : (a ++ b) ++ c = a ++ b ++ c.
Proof.
  induction a as [|x a IH]; [reflexivity |].
  now rewrite !append_cons, IH.
Qed.

Lemma startswith_app (p s : string) :
  startswith p s = true <-> exists post, s = p ++ post.
Proof.
  revert s. induction p as [|a p IH]; intros s; simpl.
  - split; [intros _; now exists s | reflexivity].
  - destruct s as [|b s].
    + split; [discriminate | intros [post H]; discriminate].
    + destruct (Ascii.eqb a b) eqn:E.
      * apply Ascii.eqb_eq in E. subst b. rewrite IH.
        split; intros [post H]; exists post.
        -- now rewrite append_cons, H.
        -- rewrite append_cons in H. now inversion H.
      * apply Ascii.eqb_neq in E.
        split; [discriminate |].
        intros [post H]. rewrite append_cons in H. inversion H. congruence.
Qed.

Lemma startswith_Substring (needle hay : string) :
  startswith needle hay = true -> Substring needle hay.
Proof.
  intros E. apply startswith_app in E. destruct E as [post E].
  exists "", post. now rewrite append_nil.
Qed.

Lemma Substring_cons (needle : string) (c : ascii) (hay : string) :
  Substring needle (String c hay) <->
  startswith needle (String c hay) = true \/ Substring needle hay.
Proof.
  split.
  - intros [pre [post H]]. destruct pre as [|d pre].
    + left. apply startswith_app. exists post. now rewrite append_nil in H.
    + right. rewrite append_cons in H. inversion H. now exists pre, post.
  - intros [E | [pre [post H]]].
    + now apply startswith_Substring.
    + exists (String c pre), post. now rewrite append_cons, H.
Qed.

Lemma str_in_Substring (needle hay : string) :
  str_in needle hay = true <-> Substring needle hay.
Proof.
  induction hay as [|c hay IH]; simpl.
  - destruct (startswith needle "") eqn:E.
    + split; [intros _; now apply startswith_Substring | reflexivity].
    + split; [discriminate |].
      intros [pre [post H]]. destruct pre as [|d pre]; [| discriminate].
      assert (startswith needle "" = true) as E'
        by (apply startswith_app; exists post; now rewrite append_nil in H).
      congruence.
  - rewrite Substring_cons.
    destruct (startswith needle (String c hay)) eqn:E.
    + split; [now left | reflexivity].
    + rewrite IH. split; [now right | now intros [? | ?]].
Qed.

Lemma Substring_app_r (needle pre hay : string) :
  Substring needle hay -> Substring needle (pre ++ hay).
Proof.
  intros [a [b H]]. exists (pre ++ a), b. rewrite H.
  symmetry. apply append_assoc.
Qed.

Lemma Substring_refl (s : string) : Substring s s.
Proof. exists "", "". now rewrite append_nil, append_nil_r. Qed.

Lemma nonempty_true (s : string) : nonempty s = true <-> s <> "".
Proof. destruct s; simpl; split; congruence. Qed.

(** ** Sessions against some worlds *)

Example session_all_pass :
  fst (session Worlds.keyed (start Worlds.both_keys))
  = [Passed; Passed; Passed; Passed; Passed].
Proof. vm_compute. reflexivity. Qed.

Example session_empty_openai_key :
  fst (session Worlds.keyed (start Worlds.empty_openai_key))
  = [ Raised (AssertionError "OPENAI_API_KEY is not set in this environment");
      Raised Worlds.AuthenticationError; Passed; Passed; Passed ].
Proof. vm_compute. reflexivity. Qed.

Example session_no_anthropic_log :
  log (snd (session Worlds.no_anthropic (start Worlds.both_keys)))
  = [ EvImport "openai"; EvClient "openai" (Some "sk-test");
      EvChatCompletion openai_request;
      EvImport "anthropic"; EvImport "anthropic" ].
Proof. vm_compute. reflexivity. Qed.

(** ** Module initialisation *)

Lemma load_dotenv_keeps (dotenv : gmap string string) (p : Proc)
    (name value : string) :
  environ p !! name = Some value ->
  environ (snd (load_dotenv dotenv p)) !! name = Some value.
Proof. intros H. simpl. now apply lookup_union_Some_l. Qed.

Lemma load_dotenv_adds (dotenv : gmap string string) (p : Proc) (name : string) :
  environ p !! name = None ->
  environ (snd (load_dotenv dotenv p)) !! name = dotenv !! name.
Proof. intros H. simpl. now apply lookup_union_r. Qed.

(** ** What the checks read and write *)

(** Proofs about a check run its body: the monad's operations are unfolded
    and the pairs they build are projected. *)
Ltac py_unfold :=
  unfold outcome, mbind, mret, Py_bind, Py_ret, bind, ret, raise, emit, vendor,
    getenv, pytest_fail, try_except_Exception in *.

Section Frame.

(** The environment variables a computation may look at. *)
Variable V : string -> Prop.

Lemma framed_ret {A : Type} (a : A) : framed V (ret a).
Proof. now split. Qed.

Lemma framed_raise {A : Type} (e : PyExc) : framed V (@raise A e).
Proof. now split. Qed.

Lemma framed_vendor {A : Type} (r : PyResult A) : framed V (vendor r).
Proof. now split. Qed.

Lemma framed_emit (ev : Event) : framed V (emit ev).
Proof. now split. Qed.

Lemma framed_getenv (name : string) : V name -> framed V (getenv name).
Proof.
  intros HV. split; [reflexivity |].
  intros p q H. unfold getenv. simpl. now rewrite (H name HV).
Qed.

Lemma framed_bind {A B : Type} (m : Py A) (k : A -> Py B) :
  framed V m -> (forall a, framed V (k a)) -> framed V (m ≫= k).
Proof.
  intros [Hme Hmr] Hk. split.
  - intros p. py_unfold. specialize (Hme p).
    destruct (m p) as [[a | e] p']; simpl in *; [| exact Hme].
    now rewrite (framed_environ V _ (Hk a)).
  - intros p q Hpq. py_unfold.
    pose proof (Hmr p q Hpq) as Hr.
    pose proof (Hme p) as Hp. pose proof (Hme q) as Hq.
    destruct (m p) as [[a | e] p'], (m q) as [[a' | e'] q'];
      simpl in *; try congruence.
    inversion Hr; subst a'.
    apply (framed_result V _ (Hk a)).
    intros x Hx. rewrite Hp, Hq. now apply Hpq.
Qed.

Lemma framed_try {A : Type} (body : Py A) (handler : PyExc -> Py A) :
  framed V body -> (forall e, framed V (handler e)) ->
  framed V (try_except_Exception body handler).
Proof.
  intros [Hbe Hbr] Hh. split.
  - intros p. py_unfold. specialize (Hbe p).
    destruct (body p) as [[a | e] p']; simpl in *; [exact Hbe |].
    destruct (exc_is_Exception e); simpl; [| exact Hbe].
    now rewrite (framed_environ V _ (Hh e)).
  - intros p q Hpq. py_unfold.
    pose proof (Hbr p q Hpq) as Hr.
    pose proof (Hbe p) as Hp. pose proof (Hbe q) as Hq.
    destruct (body p) as [[a | e] p'], (body q) as [[a' | e'] q'];
      simpl in *; try congruence.
    inversion Hr; subst e'.
    destruct (exc_is_Exception e); simpl; [| reflexivity].
    apply (framed_result V _ (Hh e)).
    intros x Hx. rewrite Hp, Hq. now apply Hpq.
Qed.

Lemma framed_pytest_fail {A : Type} (msg : string) :
  framed V (@pytest_fail A msg).
Proof. apply framed_raise. Qed.

Lemma framed_py_assert (b : bool) (msg : string) : framed V (py_assert b msg).
Proof. destruct b; [apply framed_ret | apply framed_raise]. Qed.

Lemma framed_index0 {A : Type} (l : list A) : framed V (index0 l).
Proof.
  unfold index0. destruct (l !! 0%nat); [apply framed_ret | apply framed_raise].
Qed.

Lemma framed_py_in (needle : string) (x : option string) :
  framed V (py_in needle x).
Proof. destruct x; [apply framed_ret | apply framed_raise]. Qed.

Lemma framed_get_text (b : ContentBlock) : framed V (get_text b).
Proof. destruct b; [apply framed_ret | apply framed_raise]. Qed.

End Frame.

Create HintDb py_frame.
#[export] Hint Resolve framed_ret framed_raise framed_vendor framed_emit
  framed_pytest_fail framed_py_assert framed_index0 framed_py_in framed_get_text : py_frame.

(** Decompose a body along its binds; what is left are the reads. *)
Ltac framed_steps :=
  repeat first
    [ apply framed_bind; [| intros ?]
    | apply framed_try; [| intros ?]
    | solve [auto with py_frame] ].

Lemma framed_test_openai_key_present (V : string -> Prop) :
  V "OPENAI_API_KEY" -> framed V test_openai_key_present.
Proof.
  intros HV. unfold test_openai_key_present. framed_steps.
  now apply framed_getenv.
Qed.

Lemma framed_test_anthropic_key_present (V : string -> Prop) :
  V "ANTHROPIC_API_KEY" -> framed V test_anthropic_key_present.
Proof.
  intros HV. unfold test_anthropic_key_present. framed_steps.
  now apply framed_getenv.
Qed.

Lemma framed_test_openai_call (V : string -> Prop) (w : World) :
  V "OPENAI_API_KEY" -> framed V (test_openai_call w).
Proof.
  intros HV. unfold test_openai_call. framed_steps.
  now apply framed_getenv.
Qed.

Lemma framed_test_anthropic_call (V : string -> Prop) (w : World) :
  V "ANTHROPIC_API_KEY" -> framed V (test_anthropic_call w).
Proof.
  intros HV. unfold test_anthropic_call. framed_steps.
  now apply framed_getenv.
Qed.

Lemma framed_test_anthropic_installed (V : string -> Prop) (w : World) :
  framed V (test_anthropic_installed w).
Proof. unfold test_anthropic_installed. framed_steps. Qed.

Lemma framed_check (V : string -> Prop) (w : World) (c : Check) :
  V "OPENAI_API_KEY" -> V "ANTHROPIC_API_KEY" -> framed V (check_body w c).
Proof.
  intros HO HA. destruct c as [[|] | [|] |]; simpl.
  - now apply framed_test_openai_key_present.
  - now apply framed_test_anthropic_key_present.
  - now apply framed_test_openai_call.
  - now apply framed_test_anthropic_call.
  - apply framed_test_anthropic_installed.
Qed.

(** ** Key-presence checks *)

Lemma names_openai_variable :
  Substring "OPENAI_API_KEY" "OPENAI_API_KEY is not set in this environment".
Proof. apply str_in_Substring. reflexivity. Qed.

Lemma names_anthropic_variable :
  Substring "ANTHROPIC_API_KEY"
    "ANTHROPIC_API_KEY is not set in this environment".
Proof. apply str_in_Substring. reflexivity. Qed.

Lemma truthy_true (v : option string) :
  truthy v = true <-> exists s, v = Some s /\ s <> "".
Proof.
  destruct v as [s |]; simpl.
  - rewrite nonempty_true. split.
    + intros H. now exists s.
    + intros [s' [E H]]. now inversion E.
  - split; [discriminate | intros [s [E _]]; discriminate].
Qed.

Lemma truthy_false (v : option string) :
  truthy v = false <-> v = None \/ v = Some "".
Proof.
  destruct v as [[| c s] |]; simpl; split; try tauto; try discriminate;
    intros [H | H]; discriminate.
Qed.

Lemma key_present_outcome (name msg : string) (p : Proc) :
  outcome (v ← getenv name; py_assert (truthy v) msg) p
  = if truthy (environ p !! name) then Passed else Raised (AssertionError msg).
Proof. py_unfold. simpl. now destruct (truthy (environ p !! name)). Qed.

(** C1. In every environment the key-presence check of a provider passes
    exactly when its credential variable ([OPENAI_API_KEY] for the one,
    [ANTHROPIC_API_KEY] for the other) is bound to a non-empty value; when the
    variable is unset or empty the check fails with an assertion message that
    contains the name of that variable. *)
Theorem key_present_iff_nonempty (p : Proc) :
  (outcome test_openai_key_present p = Passed
     <-> exists v, environ p !! "OPENAI_API_KEY" = Some v /\ v <> "")
  /\ (environ p !! "OPENAI_API_KEY" = None
      \/ environ p !! "OPENAI_API_KEY" = Some ""
      -> exists msg,
           outcome test_openai_key_present p = Raised (AssertionError msg)
           /\ Substring "OPENAI_API_KEY" msg)
  /\ (outcome test_anthropic_key_present p = Passed
     <-> exists v, environ p !! "ANTHROPIC_API_KEY" = Some v /\ v <> "")
  /\ (environ p !! "ANTHROPIC_API_KEY" = None
      \/ environ p !! "ANTHROPIC_API_KEY" = Some ""
      -> exists msg,
           outcome test_anthropic_key_present p = Raised (AssertionError msg)
           /\ Substring "ANTHROPIC_API_KEY" msg).
Proof.
  unfold test_openai_key_present, test_anthropic_key_present.
  rewrite !key_present_outcome.
  repeat split.
  - intros H. apply truthy_true.
    destruct (truthy (environ p !! "OPENAI_API_KEY")); [reflexivity | discriminate].
  - intros H. apply truthy_true in H. now rewrite H.
  - intros H. apply truthy_false in H. rewrite H.
    eexists. split; [reflexivity | apply names_openai_variable].
  - intros H. apply truthy_true.
    destruct (truthy (environ p !! "ANTHROPIC_API_KEY")); [reflexivity | discriminate].
  - intros H. apply truthy_true in H. now rewrite H.
  - intros H. apply truthy_false in H. rewrite H.
    eexists. split; [reflexivity | apply names_anthropic_variable].
Qed.

(** ** Call checks, step by step *)

Ltac py_log := unfold after; simpl; rewrite <- ?app_assoc; simpl.

Section CallSteps.

Variable w : World.
Variable p : Proc.

Lemma openai_call_import_raises (e : PyExc) :
  import_openai w = Raised e ->
  test_openai_call w p = (Raised e, after p [EvImport "openai"]).
Proof.
  intros H. unfold test_openai_call. py_unfold. simpl. now rewrite H.
Qed.

Lemma openai_call_client_raises (m : OpenAIModule) (e : PyExc) :
  import_openai w = Returned m ->
  OpenAI m (environ p !! "OPENAI_API_KEY") = Raised e ->
  test_openai_call w p
  = (Raised e,
     after p [EvImport "openai";
              EvClient "openai" (environ p !! "OPENAI_API_KEY")]).
Proof.
  intros Hm Hc. unfold test_openai_call. py_unfold. simpl.
  rewrite Hm. simpl. rewrite Hc. now py_log.
Qed.

Lemma openai_call_request_raises (m : OpenAIModule) (c : OpenAIClient)
    (e : PyExc) :
  import_openai w = Returned m ->
  OpenAI m (environ p !! "OPENAI_API_KEY") = Returned c ->
  chat_completions_create c openai_request = Raised e ->
  test_openai_call w p
  = (Raised e,
     after p [EvImport "openai";
              EvClient "openai" (environ p !! "OPENAI_API_KEY");
              EvChatCompletion openai_request]).
Proof.
  intros Hm Hc Hr. unfold test_openai_call. py_unfold. simpl.
  rewrite Hm. simpl. rewrite Hc. simpl. rewrite Hr. now py_log.
Qed.

Lemma openai_call_response (m : OpenAIModule) (c : OpenAIClient)
    (resp : ChatCompletion) :
  import_openai w = Returned m ->
  OpenAI m (environ p !! "OPENAI_API_KEY") = Returned c ->
  chat_completions_create c openai_request = Returned resp ->
  test_openai_call w p
  = openai_verdict resp
      (after p [EvImport "openai";
                EvClient "openai" (environ p !! "OPENAI_API_KEY");
                EvChatCompletion openai_request]).
Proof.
  intros Hm Hc Hr. unfold test_openai_call, openai_verdict. py_unfold. simpl.
  rewrite Hm. simpl. rewrite Hc. simpl. rewrite Hr. now py_log.
Qed.

Lemma anthropic_call_import_raises (e : PyExc) :
  import_anthropic w = Raised e ->
  test_anthropic_call w p = (Raised e, after p [EvImport "anthropic"]).
Proof.
  intros H. unfold test_anthropic_call. py_unfold. simpl. now rewrite H.
Qed.

Lemma anthropic_call_client_raises (m : AnthropicModule) (e : PyExc) :
  import_anthropic w = Returned m ->
  Anthropic m (environ p !! "ANTHROPIC_API_KEY") = Raised e ->
  test_anthropic_call w p
  = (Raised e,
     after p [EvImport "anthropic";
              EvClient "anthropic" (environ p !! "ANTHROPIC_API_KEY")]).
Proof.
  intros Hm Hc. unfold test_anthropic_call. py_unfold. simpl.
  rewrite Hm. simpl. rewrite Hc. now py_log.
Qed.

Lemma anthropic_call_request_raises (m : AnthropicModule)
    (c : AnthropicClient) (e : PyExc) :
  import_anthropic w = Returned m ->
  Anthropic m (environ p !! "ANTHROPIC_API_KEY") = Returned c ->
  messages_create c anthropic_request = Raised e ->
  test_anthropic_call w p
  = (Raised e,
     after p [EvImport "anthropic";
              EvClient "anthropic" (environ p !! "ANTHROPIC_API_KEY");
              EvMessagesCreate anthropic_request]).
Proof.
  intros Hm Hc Hr. unfold test_anthropic_call. py_unfold. simpl.
  rewrite Hm. simpl. rewrite Hc. simpl. rewrite Hr. now py_log.
Qed.

Lemma anthropic_call_response (m : AnthropicModule) (c : AnthropicClient)
    (resp : AnthropicMessage) :
  import_anthropic w = Returned m ->
  Anthropic m (environ p !! "ANTHROPIC_API_KEY") = Returned c ->
  messages_create c anthropic_request = Returned resp ->
  test_anthropic_call w p
  = anthropic_verdict resp
      (after p [EvImport "anthropic";
                EvClient "anthropic" (environ p !! "ANTHROPIC_API_KEY");
                EvMessagesCreate anthropic_request]).
Proof.
  intros Hm Hc Hr. unfold test_anthropic_call, anthropic_verdict.
  py_unfold. simpl.
  rewrite Hm. simpl. rewrite Hc. simpl. rewrite Hr. now py_log.
Qed.

End CallSteps.

(** The verdict on a response touches nothing of the process. *)
Lemma openai_verdict_log (resp : ChatCompletion) (q : Proc) :
  snd (openai_verdict resp q) = q.
Proof.
  unfold openai_verdict, index0, py_in, py_assert. py_unfold.
  destruct (choices resp !! 0%nat) as [c |]; simpl; [| reflexivity].
  destruct (message_content c) as [s |]; simpl; [| reflexivity].
  now destruct (str_in "OK" s).
Qed.

Lemma anthropic_verdict_log (resp : AnthropicMessage) (q : Proc) :
  snd (anthropic_verdict resp q) = q.
Proof.
  unfold anthropic_verdict, index0, get_text, py_assert. py_unfold.
  destruct (resp_content resp !! 0%nat) as [b |]; simpl; [| reflexivity].
  destruct b as [t |]; simpl; [| reflexivity].
  now destruct (str_in "OK" t).
Qed.

Lemma openai_verdict_passed (resp : ChatCompletion) (q : Proc) :
  fst (openai_verdict resp q) = Passed
  <-> exists c txt, choices resp !! 0%nat = Some c
                    /\ message_content c = Some txt
                    /\ Substring "OK" txt.
Proof.
  unfold openai_verdict, index0, py_in, py_assert. py_unfold.
  destruct (choices resp !! 0%nat) as [c |]; simpl.
  - destruct (message_content c) as [s |] eqn:Es; simpl.
    + destruct (str_in "OK" s) eqn:E; simpl.
      * split; [intros _ | reflexivity].
        exists c, s. repeat split; [exact Es |]. now apply str_in_Substring.
      * split; [discriminate |].
        intros [c' [txt [Hc [Ht Hs]]]]. inversion Hc; subst c'.
        rewrite Es in Ht. inversion Ht; subst txt.
        apply str_in_Substring in Hs. congruence.
    + split; [discriminate |].
      intros [c' [txt [Hc [Ht _]]]]. inversion Hc; subst c'. congruence.
  - split; [discriminate |]. intros [c' [txt [Hc _]]]. discriminate.
Qed.

Lemma anthropic_verdict_passed (resp : AnthropicMessage) (q : Proc) :
  fst (anthropic_verdict resp q) = Passed
  <-> exists txt, resp_content resp !! 0%nat = Some (TextBlock txt)
                  /\ Substring "OK" txt.
Proof.
  unfold anthropic_verdict, index0, get_text, py_assert. py_unfold.
  destruct (resp_content resp !! 0%nat) as [b |]; simpl.
  - destruct b as [t |]; simpl.
    + destruct (str_in "OK" t) eqn:E; simpl.
      * split; [intros _ | reflexivity].
        exists t. split; [reflexivity |]. now apply str_in_Substring.
      * split; [discriminate |].
        intros [txt [Hb Hs]]. inversion Hb; subst txt.
        apply str_in_Substring in Hs. congruence.
    + split; [discriminate |]. intros [txt [Hb _]]. discriminate.
  - split; [discriminate |]. intros [txt [Hb _]]. discriminate.
Qed.

(** ** The request each call check sends, and its verdict *)

Lemma openai_call_sent (w : World) (p : Proc) :
  sent (test_openai_call w) p
  = match import_openai w with
    | Raised _ => [EvImport "openai"]
    | Returned m =>
        match OpenAI m (environ p !! "OPENAI_API_KEY") with
        | Raised _ =>
            [EvImport "openai";
             EvClient "openai" (environ p !! "OPENAI_API_KEY")]
        | Returned _ =>
            [EvImport "openai";
             EvClient "openai" (environ p !! "OPENAI_API_KEY");
             EvChatCompletion openai_request]
        end
    end.
Proof.
  unfold sent.
  destruct (import_openai w) as [m | e] eqn:Hm.
  - destruct (OpenAI m (environ p !! "OPENAI_API_KEY")) as [c | e] eqn:Hc.
    + destruct (chat_completions_create c openai_request) as [resp | e] eqn:Hr.
      * rewrite (openai_call_response w p m c resp Hm Hc Hr).
        rewrite openai_verdict_log. apply drop_app_length.
      * rewrite (openai_call_request_raises w p m c e Hm Hc Hr).
        apply drop_app_length.
    + rewrite (openai_call_client_raises w p m e Hm Hc).
      apply drop_app_length.
  - rewrite (openai_call_import_raises w p e Hm). apply drop_app_length.
Qed.

Lemma anthropic_call_sent (w : World) (p : Proc) :
  sent (test_anthropic_call w) p
  = match import_anthropic w with
    | Raised _ => [EvImport "anthropic"]
    | Returned m =>
        match Anthropic m (environ p !! "ANTHROPIC_API_KEY") with
        | Raised _ =>
            [EvImport "anthropic";
             EvClient "anthropic" (environ p !! "ANTHROPIC_API_KEY")]
        | Returned _ =>
            [EvImport "anthropic";
             EvClient "anthropic" (environ p !! "ANTHROPIC_API_KEY");
             EvMessagesCreate anthropic_request]
        end
    end.
Proof.
  unfold sent.
  destruct (import_anthropic w) as [m | e] eqn:Hm.
  - destruct (Anthropic m (environ p !! "ANTHROPIC_API_KEY")) as [c | e] eqn:Hc.
    + destruct (messages_create c anthropic_request) as [resp | e] eqn:Hr.
      * rewrite (anthropic_call_response w p m c resp Hm Hc Hr).
        rewrite anthropic_verdict_log. apply drop_app_length.
      * rewrite (anthropic_call_request_raises w p m c e Hm Hc Hr).
        apply drop_app_length.
    + rewrite (anthropic_call_client_raises w p m e Hm Hc).
      apply drop_app_length.
  - rewrite (anthropic_call_import_raises w p e Hm). apply drop_app_length.
Qed.

(** C2. The OpenAI call check never sends more than one chat-completion
    request, and none with other arguments than: model "gpt-4o-mini", a
    single message of role "user" and content "Say OK", at most 5 output
    tokens.  When the [openai] package loads and the client is constructed it
    sends exactly that one request, and whatever response comes back, the
    check passes exactly when there is a first choice whose content is a
    text that contains "OK". *)
Theorem openai_call_request_and_verdict (w : World) (p : Proc) :
  (openai_requests (sent (test_openai_call w) p) = []
   \/ openai_requests (sent (test_openai_call w) p)
      = [ EvChatCompletion
            {| model := "gpt-4o-mini";
               messages := [ {| role := "user"; content := "Say OK" |} ];
               max_tokens := 5 |} ])
  /\ forall m client,
       import_openai w = Returned m ->
       OpenAI m (environ p !! "OPENAI_API_KEY") = Returned client ->
       openai_requests (sent (test_openai_call w) p)
       = [ EvChatCompletion
             {| model := "gpt-4o-mini";
                messages := [ {| role := "user"; content := "Say OK" |} ];
                max_tokens := 5 |} ]
       /\ forall resp,
            chat_completions_create client
              {| model := "gpt-4o-mini";
                 messages := [ {| role := "user"; content := "Say OK" |} ];
                 max_tokens := 5 |} = Returned resp ->
            (outcome (test_openai_call w) p = Passed
             <-> exists c txt, choices resp !! 0%nat = Some c
                               /\ message_content c = Some txt
                               /\ Substring "OK" txt).
Proof.
  rewrite openai_call_sent. split.
  - destruct (import_openai w) as [m | e]; [| now left].
    destruct (OpenAI m (environ p !! "OPENAI_API_KEY")); [now right | now left].
  - intros m client Hm Hc. rewrite Hm, Hc. split; [reflexivity |].
    intros resp Hr. unfold outcome.
    rewrite (openai_call_response w p m client resp Hm Hc Hr).
    apply openai_verdict_passed.
Qed.

Lemma openai_call_request_and_verdict_witness :
  import_openai Worlds.keyed = Returned Worlds.keyed_openai
  /\ outcome (test_openai_call Worlds.keyed) (start Worlds.both_keys) = Passed.
Proof.
  split; [reflexivity |].
  destruct (proj2 (openai_call_request_and_verdict
                     Worlds.keyed (start Worlds.both_keys))
              Worlds.keyed_openai
              {| chat_completions_create := fun _ =>
                   if nonempty "sk-test" then Returned Worlds.ok_completion
                   else Raised Worlds.AuthenticationError |}
              eq_refl eq_refl) as [_ H].
  apply (H Worlds.ok_completion eq_refl).
  exists {| message_content := Some "OK" |}, "OK".
  repeat split. apply Substring_refl.
Defined.

(** C3. The Anthropic call check never sends more than one message-creation
    request, and none with other arguments than: the fixed model
    "claude-3-haiku-20240307", a single message of role "user" and content
    "Say OK", at most 5 output tokens.  When the [anthropic] package loads and
    the client is constructed it sends exactly that one request, and whatever
    response comes back, the check passes exactly when the first content
    block of the response is a text block whose text contains "OK". *)
Theorem anthropic_call_request_and_verdict (w : World) (p : Proc) :
  (anthropic_requests (sent (test_anthropic_call w) p) = []
   \/ anthropic_requests (sent (test_anthropic_call w) p)
      = [ EvMessagesCreate
            {| model := "claude-3-haiku-20240307";
               messages := [ {| role := "user"; content := "Say OK" |} ];
               max_tokens := 5 |} ])
  /\ forall m client,
       import_anthropic w = Returned m ->
       Anthropic m (environ p !! "ANTHROPIC_API_KEY") = Returned client ->
       anthropic_requests (sent (test_anthropic_call w) p)
       = [ EvMessagesCreate
             {| model := "claude-3-haiku-20240307";
                messages := [ {| role := "user"; content := "Say OK" |} ];
                max_tokens := 5 |} ]
       /\ forall resp,
            messages_create client
              {| model := "claude-3-haiku-20240307";
                 messages := [ {| role := "user"; content := "Say OK" |} ];
                 max_tokens := 5 |} = Returned resp ->
            (outcome (test_anthropic_call w) p = Passed
             <-> exists txt,
                   resp_content resp !! 0%nat = Some (TextBlock txt)
                   /\ Substring "OK" txt).
Proof.
  rewrite anthropic_call_sent. split.
  - destruct (import_anthropic w) as [m | e]; [| now left].
    destruct (Anthropic m (environ p !! "ANTHROPIC_API_KEY"));
      [now right | now left].
  - intros m client Hm Hc. rewrite Hm, Hc. split; [reflexivity |].
    intros resp Hr. unfold outcome.
    rewrite (anthropic_call_response w p m client resp Hm Hc Hr).
    apply anthropic_verdict_passed.
Qed.

Lemma anthropic_call_request_and_verdict_witness :
  import_anthropic Worlds.keyed = Returned Worlds.keyed_anthropic
  /\ outcome (test_anthropic_call Worlds.keyed) (start Worlds.both_keys) = Passed.
Proof.
  split; [reflexivity |].
  destruct (proj2 (anthropic_call_request_and_verdict
                     Worlds.keyed (start Worlds.both_keys))
              Worlds.keyed_anthropic
              {| messages_create := fun _ =>
                   if truthy (Some "sk-ant-test") then Returned Worlds.ok_message
                   else Raised Worlds.AuthenticationError |}
              eq_refl eq_refl) as [_ H].
  apply (H Worlds.ok_message eq_refl).
  exists "OK.". split; [reflexivity |].
  apply str_in_Substring. reflexivity.
Defined.

(** ** A call check without a credential *)

Lemma key_present_check_outcome (w : World) (pr : Provider) (p : Proc) :
  outcome (check_body w (KeyPresent pr)) p = Passed
  <-> truthy (environ p !! credential pr) = true.
Proof.
  destruct pr; simpl;
    unfold test_openai_key_present, test_anthropic_key_present;
    rewrite key_present_outcome;
    match goal with |- context [truthy ?v] => destruct (truthy v) end;
    split; congruence.
Qed.

(** C4 does not hold as stated: the call check has no guard on the
    credential, whether it passes is decided by the vendor's client.
    Against a provider that answers whatever the key, the call check passes
    in an environment where the key-presence check fails. *)
Lemma call_passes_without_key :
  outcome test_openai_key_present (start Worlds.no_keys)
  = Raised (AssertionError "OPENAI_API_KEY is not set in this environment")
  /\ outcome (test_openai_call Worlds.stub) (start Worlds.no_keys) = Passed
  /\ outcome test_anthropic_key_present (start Worlds.no_keys)
     = Raised (AssertionError "ANTHROPIC_API_KEY is not set in this environment")
  /\ outcome (test_anthropic_call Worlds.stub) (start Worlds.no_keys) = Passed.
Proof. repeat split. Qed.

(** C4, amended.  In every environment in which the key-presence check of a
    provider fails (the credential variable unset or empty), the call check
    of that provider does not pass, provided the provider's client library
    refuses the credential as that environment has it (the missing one when
    the variable is unset, the empty one when it is empty): loading the
    library, constructing the client or the request fails. *)
Theorem call_fails_without_key (w : World) (pr : Provider) (p : Proc) :
  outcome (check_body w (KeyPresent pr)) p <> Passed ->
  (environ p !! credential pr = None -> refuses w pr None) ->
  (environ p !! credential pr = Some "" -> refuses w pr (Some "")) ->
  outcome (check_body w (CallSucceeds pr)) p <> Passed.
Proof.
  intros Hkey Hnone Hempty.
  assert (refuses w pr (environ p !! credential pr)) as Hrej.
  { assert (truthy (environ p !! credential pr) = false) as Hk.
    { destruct (truthy (environ p !! credential pr)) eqn:E; [| reflexivity].
      exfalso. apply Hkey. now apply key_present_check_outcome. }
    apply truthy_false in Hk. destruct Hk as [Hk | Hk]; rewrite Hk.
    - now apply Hnone.
    - now apply Hempty. }
  clear Hkey Hnone Hempty. unfold outcome.
  destruct pr; simpl in *.
  - destruct (import_openai w) as [m | e] eqn:Hm.
    + destruct (OpenAI m (environ p !! "OPENAI_API_KEY")) as [c | e] eqn:Hc.
      * destruct (chat_completions_create c openai_request) as [resp | e] eqn:Hr.
        -- exfalso. exact (Hrej m c resp eq_refl Hc Hr).
        -- now rewrite (openai_call_request_raises w p m c e Hm Hc Hr).
      * now rewrite (openai_call_client_raises w p m e Hm Hc).
    + now rewrite (openai_call_import_raises w p e Hm).
  - destruct (import_anthropic w) as [m | e] eqn:Hm.
    + destruct (Anthropic m (environ p !! "ANTHROPIC_API_KEY")) as [c | e] eqn:Hc.
      * destruct (messages_create c anthropic_request) as [resp | e] eqn:Hr.
        -- exfalso. exact (Hrej m c resp eq_refl Hc Hr).
        -- now rewrite (anthropic_call_request_raises w p m c e Hm Hc Hr).
      * now rewrite (anthropic_call_client_raises w p m e Hm Hc).
    + now rewrite (anthropic_call_import_raises w p e Hm).
Qed.

Lemma call_fails_without_key_witness :
  outcome test_openai_key_present (start Worlds.empty_openai_key)
  = Raised (AssertionError "OPENAI_API_KEY is not set in this environment")
  /\ refuses Worlds.keyed ProvOpenAI (Some "")
  /\ outcome (test_openai_call Worlds.keyed) (start Worlds.empty_openai_key)
     <> Passed.
Proof.
  assert (refuses Worlds.keyed ProvOpenAI (Some "")) as Hrej.
  { intros m c resp Hm Hc. inversion Hm; subst m. simpl in Hc.
    inversion Hc; subst c. simpl. discriminate. }
  split; [reflexivity | split; [exact Hrej |]].
  apply (call_fails_without_key Worlds.keyed ProvOpenAI
           (start Worlds.empty_openai_key)).
  - discriminate.
  - discriminate.
  - intros _. exact Hrej.
Defined.

(** ** The library-availability check *)

Lemma anthropic_installed_run (w : World) (p : Proc) :
  test_anthropic_installed w p
  = (match import_anthropic w with
     | Returned _ => Passed
     | Raised e =>
         Raised (if exc_is_Exception e
                 then Failed (not_installed_message e) else e)
     end,
     after p [EvImport "anthropic"]).
Proof.
  unfold test_anthropic_installed. py_unfold. simpl.
  destruct (import_anthropic w) as [m | e]; simpl; [reflexivity |].
  now destruct (exc_is_Exception e).
Qed.

(** The report of a failed load carries the text of the load error. *)
Lemma load_error_reported (e : PyExc) :
  Substring (exc_str e)
    (exc_str (if exc_is_Exception e
              then Failed (not_installed_message e) else e)).
Proof.
  destruct (exc_is_Exception e); simpl.
  - apply Substring_app_r, Substring_refl.
  - apply Substring_refl.
Qed.

Lemma anthropic_call_attempts_app (l k : list Event) :
  anthropic_call_attempts (l ++ k)
  = (anthropic_call_attempts l ++ anthropic_call_attempts k)%list.
Proof. apply filter_app. Qed.

(** The OpenAI call check does nothing to the other provider. *)
Lemma openai_call_no_anthropic (w : World) (p : Proc) :
  anthropic_call_attempts (log (snd (test_openai_call w p)))
  = anthropic_call_attempts (log p).
Proof.
  destruct (import_openai w) as [m | e] eqn:Hm.
  - destruct (OpenAI m (environ p !! "OPENAI_API_KEY")) as [c | e] eqn:Hc.
    + destruct (chat_completions_create c openai_request) as [resp | e] eqn:Hr.
      * rewrite (openai_call_response w p m c resp Hm Hc Hr), openai_verdict_log.
        simpl. rewrite anthropic_call_attempts_app. apply app_nil_r.
      * rewrite (openai_call_request_raises w p m c e Hm Hc Hr).
        simpl. rewrite anthropic_call_attempts_app. apply app_nil_r.
    + rewrite (openai_call_client_raises w p m e Hm Hc).
      simpl. rewrite anthropic_call_attempts_app. apply app_nil_r.
  - rewrite (openai_call_import_raises w p e Hm).
    simpl. rewrite anthropic_call_attempts_app. apply app_nil_r.
Qed.

Lemma key_present_run (name msg : string) (p : Proc) :
  snd ((v ← getenv name; py_assert (truthy v) msg) p) = p.
Proof. py_unfold. simpl. now destruct (truthy (environ p !! name)). Qed.

(** C5 does not hold as stated: nothing skips the Anthropic call check when
    the package cannot be loaded.  With [anthropic] not installed, the
    session runs the call check all the same: it attempts its import and
    fails there. *)
Lemma call_check_runs_without_library :
  import_anthropic Worlds.no_anthropic = Raised Worlds.ModuleNotFoundError
  /\ fst (session Worlds.no_anthropic (start Worlds.both_keys))
     = [ Passed; Passed;
         Raised (Failed "anthropic package not installed in this interpreter: No module named 'anthropic'");
         Passed; Raised Worlds.ModuleNotFoundError ]
  /\ sent (test_anthropic_call Worlds.no_anthropic) (start Worlds.both_keys)
     = [EvImport "anthropic"].
Proof. repeat split. Qed.

(** C5, amended.  In every run in which loading the [anthropic] package
    raises, the library-availability check fails and its report carries the
    text of the load error.  The Anthropic call check is not skipped: run in
    that world it attempts its import, fails there with that same load
    error and goes no further, so that in the whole session no Anthropic
    client is constructed and no message-creation request is sent. *)
Theorem anthropic_not_loadable (w : World) (p : Proc) (e : PyExc) :
  import_anthropic w = Raised e ->
  (exists x, outcome (test_anthropic_installed w) p = Raised x
             /\ Substring (exc_str e) (exc_str x))
  /\ test_anthropic_call w p = (Raised e, after p [EvImport "anthropic"])
  /\ anthropic_call_attempts (log (snd (session w p)))
     = anthropic_call_attempts (log p).
Proof.
  intros He. split; [| split].
  - unfold outcome. rewrite anthropic_installed_run, He. simpl.
    eexists. split; [reflexivity | apply load_error_reported].
  - now apply anthropic_call_import_raises.
  - unfold session, collected, run_tests.
    destruct (test_openai_key_present p) as [o1 p1] eqn:E1.
    assert (p1 = p) as -> by
      (pose proof (key_present_run "OPENAI_API_KEY"
         "OPENAI_API_KEY is not set in this environment" p) as H;
       unfold test_openai_key_present in E1; now rewrite E1 in H).
    pose proof (openai_call_no_anthropic w p) as H2.
    destruct (test_openai_call w p) as [o2 p2]. simpl in H2.
    rewrite anthropic_installed_run.
    destruct (test_anthropic_key_present (after p2 [EvImport "anthropic"]))
      as [o4 p4] eqn:E4.
    assert (p4 = after p2 [EvImport "anthropic"]) as -> by
      (pose proof (key_present_run "ANTHROPIC_API_KEY"
         "ANTHROPIC_API_KEY is not set in this environment"
         (after p2 [EvImport "anthropic"])) as H;
       unfold test_anthropic_key_present in E4; now rewrite E4 in H).
    rewrite (anthropic_call_import_raises w _ e He). simpl.
    rewrite !anthropic_call_attempts_app. simpl.
    rewrite !app_nil_r. exact H2.
Qed.

Lemma anthropic_not_loadable_witness :
  import_anthropic Worlds.no_anthropic = Raised Worlds.ModuleNotFoundError
  /\ test_anthropic_call Worlds.no_anthropic (start Worlds.both_keys)
     = (Raised Worlds.ModuleNotFoundError,
        after (start Worlds.both_keys) [EvImport "anthropic"]).
Proof.
  split; [reflexivity |].
  exact (proj1 (proj2 (anthropic_not_loadable Worlds.no_anthropic
                         (start Worlds.both_keys) Worlds.ModuleNotFoundError
                         eq_refl))).
Defined.

(** C6. The library-availability check passes exactly when loading the
    [anthropic] package raises nothing; when loading raises, the check fails
    and what it fails with carries the text of the load error. *)
Theorem anthropic_installed_iff_loads (w : World) (p : Proc) :
  (outcome (test_anthropic_installed w) p = Passed
   <-> exists m, import_anthropic w = Returned m)
  /\ (forall e, import_anthropic w = Raised e ->
        exists x, outcome (test_anthropic_installed w) p = Raised x
                  /\ Substring (exc_str e) (exc_str x)).
Proof.
  unfold outcome. rewrite anthropic_installed_run. simpl. split.
  - destruct (import_anthropic w) as [m | e].
    + split; [intros _; now exists m | reflexivity].
    + split; [discriminate | intros [m H]; discriminate].
  - intros e He. rewrite He.
    eexists. split; [reflexivity | apply load_error_reported].
Qed.

(** C10 does not hold as stated: [except Exception] lets through what
    does not derive from [Exception].  When loading the package raises
    [SystemExit], the check does not turn it into a failure of its own: the
    exception itself leaves the check. *)
Lemma system_exit_propagates :
  import_anthropic Worlds.exiting_anthropic = Raised Worlds.SystemExit
  /\ outcome (test_anthropic_installed Worlds.exiting_anthropic)
       (start Worlds.both_keys)
     = Raised Worlds.SystemExit.
Proof. split; reflexivity. Qed.

(** C10, amended.  The library-availability check catches every exception
    deriving from [Exception] that loading the package raises, not only import
    errors: it turns it into an ordinary check failure ([pytest.fail]) whose
    message ends with that exception's text, and the exception itself does
    not leave the check.  An exception that does not derive from [Exception]
    leaves the check as it is. *)
Theorem anthropic_installed_catches (w : World) (p : Proc) (e : PyExc) :
  import_anthropic w = Raised e ->
  (exc_is_Exception e = true ->
     outcome (test_anthropic_installed w) p
     = Raised (Failed ("anthropic package not installed in this interpreter: "
                       ++ exc_str e))
     /\ outcome (test_anthropic_installed w) p <> Raised e)
  /\ (exc_is_Exception e = false ->
        outcome (test_anthropic_installed w) p = Raised e).
Proof.
  intros He. unfold outcome. rewrite anthropic_installed_run, He. simpl.
  split; intros Hx; rewrite Hx; [| reflexivity].
  split; [reflexivity |].
  intros H. inversion H as [H']. rewrite <- H' in Hx. discriminate.
Qed.

Lemma anthropic_installed_catches_witness :
  import_anthropic Worlds.broken_anthropic = Raised Worlds.ValueError
  /\ outcome (test_anthropic_installed Worlds.broken_anthropic)
       (start Worlds.both_keys)
     = Raised (Failed "anthropic package not installed in this interpreter: unsupported interpreter").
Proof.
  split; [reflexivity |].
  exact (proj1 (proj1 (anthropic_installed_catches Worlds.broken_anthropic
                         (start Worlds.both_keys) Worlds.ValueError eq_refl)
                 eq_refl)).
Defined.

(** ** Errors during a call check *)

Lemma prefix_1_of_3 {A : Type} (a b c : A) : [a] `prefix_of` [a; b; c].
Proof. now exists [b; c]. Qed.

Lemma prefix_2_of_3 {A : Type} (a b c : A) : [a; b] `prefix_of` [a; b; c].
Proof. now exists [c]. Qed.

(** C7. Whatever error the provider side raises during a call check (loading,
    client construction, the request: transport, authentication, rate limit;
    or a malformed response), the outcome of the check is that very error:
    nothing catches it.  What the check has done by then is an initial part
    of its one sequence load, construct, request: no step is done twice (no
    retry) and nothing else is tried (no fallback). *)
Theorem provider_error_propagates
    (w : World) (pr : Provider) (p : Proc) (e : PyExc) :
  provider_error w pr (environ p !! credential pr) e ->
  outcome (check_body w (CallSucceeds pr)) p = Raised e
  /\ exists evs,
       snd (check_body w (CallSucceeds pr) p) = after p evs
       /\ evs `prefix_of` call_steps pr (environ p !! credential pr).
Proof.
  unfold outcome.
  destruct pr; simpl; intros [He | m Hm He | m c Hm Hc He
                              | m c Hm Hc Hr He | m c rest Hm Hc Hr He].
  - rewrite (openai_call_import_raises w p e He). split; [reflexivity |].
    eexists. split; [reflexivity | apply prefix_1_of_3].
  - rewrite (openai_call_client_raises w p m e Hm He). split; [reflexivity |].
    eexists. split; [reflexivity | apply prefix_2_of_3].
  - rewrite (openai_call_request_raises w p m c e Hm Hc He).
    split; [reflexivity |]. eexists. split; reflexivity.
  - rewrite (openai_call_response w p m c _ Hm Hc Hr). subst e.
    split; [reflexivity |]. eexists. split; reflexivity.
  - rewrite (openai_call_response w p m c _ Hm Hc Hr). subst e.
    split; [reflexivity |]. eexists. split; reflexivity.
  - rewrite (anthropic_call_import_raises w p e He). split; [reflexivity |].
    eexists. split; [reflexivity | apply prefix_1_of_3].
  - rewrite (anthropic_call_client_raises w p m e Hm He). split; [reflexivity |].
    eexists. split; [reflexivity | apply prefix_2_of_3].
  - rewrite (anthropic_call_request_raises w p m c e Hm Hc He).
    split; [reflexivity |]. eexists. split; reflexivity.
  - rewrite (anthropic_call_response w p m c _ Hm Hc Hr). subst e.
    split; [reflexivity |]. eexists. split; reflexivity.
  - rewrite (anthropic_call_response w p m c _ Hm Hc Hr). subst e.
    split; [reflexivity |]. eexists. split; reflexivity.
Qed.

Lemma provider_error_propagates_witness :
  provider_error Worlds.keyed ProvOpenAI (Some "") Worlds.AuthenticationError
  /\ outcome (test_openai_call Worlds.keyed) (start Worlds.empty_openai_key)
     = Raised Worlds.AuthenticationError.
Proof.
  assert (provider_error Worlds.keyed ProvOpenAI (Some "")
            Worlds.AuthenticationError) as H
    by (eapply OpenAI_request; reflexivity).
  split; [exact H |].
  exact (proj1 (provider_error_propagates Worlds.keyed ProvOpenAI
                  (start Worlds.empty_openai_key) Worlds.AuthenticationError H)).
Defined.

(** ** Independence of the checks *)

(** C8. Two runs against the same world whose environments differ at most
    in the value of [OPENAI_API_KEY] (unset, empty or any key in either) give
    the same outcome for the Anthropic key-presence check, the Anthropic
    library-availability check and the Anthropic call check. *)
Theorem anthropic_checks_ignore_openai_key (w : World) (p q : Proc) :
  (forall k, k <> "OPENAI_API_KEY" -> environ p !! k = environ q !! k) ->
  outcome test_anthropic_key_present p = outcome test_anthropic_key_present q
  /\ outcome (test_anthropic_installed w) p
     = outcome (test_anthropic_installed w) q
  /\ outcome (test_anthropic_call w) p = outcome (test_anthropic_call w) q.
Proof.
  intros H.
  assert ("ANTHROPIC_API_KEY" <> "OPENAI_API_KEY") as Hne by discriminate.
  repeat split.
  - now apply (framed_result _ _
      (framed_test_anthropic_key_present (fun k => k <> "OPENAI_API_KEY") Hne)).
  - now apply (framed_result _ _
      (framed_test_anthropic_installed (fun k => k <> "OPENAI_API_KEY") w)).
  - now apply (framed_result _ _
      (framed_test_anthropic_call (fun k => k <> "OPENAI_API_KEY") w Hne)).
Qed.

Lemma anthropic_checks_ignore_openai_key_witness :
  outcome test_openai_key_present (start Worlds.empty_openai_key)
  <> outcome test_openai_key_present (start Worlds.both_keys)
  /\ outcome (test_anthropic_call Worlds.keyed) (start Worlds.empty_openai_key)
     = outcome (test_anthropic_call Worlds.keyed) (start Worlds.both_keys).
Proof.
  split; [discriminate |].
  refine (proj2 (proj2 (anthropic_checks_ignore_openai_key Worlds.keyed
                          (start Worlds.empty_openai_key)
                          (start Worlds.both_keys) _))).
  intros k Hk. unfold Worlds.empty_openai_key, Worlds.both_keys. simpl.
  rewrite !(lookup_insert_ne _ "OPENAI_API_KEY") by congruence.
  reflexivity.
Defined.

(** ** Repeating a check *)

Lemma run_tests_repeat (V : string -> Prop) (t : Py unit) (n : nat) (p : Proc) :
  framed V t ->
  fst (run_tests (replicate n t) p) = replicate n (outcome t p)
  /\ environ (snd (run_tests (replicate n t) p)) = environ p.
Proof.
  intros Ht. revert p. induction n as [| n IH]; intros p; simpl.
  - now split.
  - pose proof (framed_environ V t Ht p) as He.
    unfold outcome in *. destruct (t p) as [o p'] eqn:E. simpl in He.
    destruct (IH p') as [IHo IHe].
    destruct (run_tests (replicate n t) p') as [os p'']. simpl in *.
    split; [| congruence].
    rewrite IHo. do 2 f_equal.
    rewrite (framed_result V t Ht p' p); [now rewrite E |].
    intros k _. now rewrite He.
Qed.

(** C9. For every check, every world (a deterministic provider) and every
    process: running the check [n] times in a row in that process gives [n]
    times the outcome of a single run; the runs leave [os.environ] as it was,
    and the outcome is the same in any process with the same environment,
    whatever was run in it before. *)
Theorem repeated_check_same_outcome
    (w : World) (c : Check) (n : nat) (p : Proc) :
  fst (run_tests (replicate n (check_body w c)) p)
  = replicate n (outcome (check_body w c) p)
  /\ environ (snd (run_tests (replicate n (check_body w c)) p)) = environ p
  /\ forall q, environ q = environ p ->
       outcome (check_body w c) q = outcome (check_body w c) p.
Proof.
  assert (framed (fun _ => True) (check_body w c)) as Hf
    by now apply framed_check.
  destruct (run_tests_repeat _ _ n p Hf) as [H1 H2].
  repeat split; [exact H1 | exact H2 |].
  intros q Hq. apply (framed_result _ _ Hf). intros k _. now rewrite Hq.
Qed.


(** * Further properties of the module *)

(** ** Any sequence of checks *)

Lemma run_tests_framed (V : string -> Prop) (ts : list (Py unit)) (p : Proc) :
  Forall (framed V) ts ->
  (forall q, agree_on V q p ->
     fst (run_tests ts q) = map (fun t => outcome t p) ts)
  /\ forall q, environ (snd (run_tests ts q)) = environ q.
Proof.
  induction 1 as [| t ts Ht Hts [IHo IHe]]; simpl.
  - now split.
  - split; intros q.
    + intros Hq.
      pose proof (framed_environ V t Ht q) as He.
      pose proof (framed_result V t Ht q p Hq) as Hr.
      destruct (t q) as [o q'] eqn:E. simpl in He, Hr.
      assert (agree_on V q' p) as Hq'
        by (intros k Hk; rewrite He; now apply Hq).
      specialize (IHo q' Hq').
      destruct (run_tests ts q') as [os q'']. simpl in *.
      unfold outcome. now rewrite Hr, IHo.
    + pose proof (framed_environ V t Ht q) as He.
      destruct (t q) as [o q'] eqn:E. simpl in He.
      specialize (IHe q').
      destruct (run_tests ts q') as [os q'']. simpl in *. congruence.
Qed.

(** X1. Whatever checks of the module are run one after the other in one
    process, in whatever order and however often, each has the outcome it
    has when it is run alone in the starting process, and [os.environ] is
    at the end what it was at the start. *)
Theorem checks_in_sequence (w : World) (cs : list Check) (p : Proc) :
  fst (run_tests (map (check_body w) cs) p)
  = map (fun c => outcome (check_body w c) p) cs
  /\ environ (snd (run_tests (map (check_body w) cs) p)) = environ p.
Proof.
  assert (Forall (framed (fun _ => True)) (map (check_body w) cs)) as Hf.
  { induction cs as [| c cs IH]; simpl; constructor;
      [now apply framed_check | exact IH]. }
  destruct (run_tests_framed _ _ p Hf) as [Ho He]. split.
  - rewrite (Ho p) by (now intros k _). now rewrite map_map.
  - apply He.
Qed.

(** ** The two providers do not interfere *)

Lemma openai_call_world (w w' : World) :
  import_openai w = import_openai w' ->
  test_openai_call w = test_openai_call w'.
Proof. intros H. unfold test_openai_call. now rewrite H. Qed.

Lemma anthropic_call_world (w w' : World) :
  import_anthropic w = import_anthropic w' ->
  test_anthropic_call w = test_anthropic_call w'.
Proof. intros H. unfold test_anthropic_call. now rewrite H. Qed.

Lemma anthropic_installed_world (w w' : World) :
  import_anthropic w = import_anthropic w' ->
  test_anthropic_installed w = test_anthropic_installed w'.
Proof. intros H. unfold test_anthropic_installed. now rewrite H. Qed.

(** X2. The OpenAI checks depend on nothing of the Anthropic side: two runs
    in which loading [openai] gives the same, and whose environments differ
    at most in [ANTHROPIC_API_KEY], give the same outcome for the OpenAI
    key-presence check and for the OpenAI call check, whatever loading
    [anthropic] gives in either. *)
Theorem openai_checks_ignore_anthropic_side (w w' : World) (p q : Proc) :
  import_openai w = import_openai w' ->
  (forall k, k <> "ANTHROPIC_API_KEY" -> environ p !! k = environ q !! k) ->
  outcome test_openai_key_present p = outcome test_openai_key_present q
  /\ outcome (test_openai_call w) p = outcome (test_openai_call w') q.
Proof.
  intros Hw H.
  assert ("OPENAI_API_KEY" <> "ANTHROPIC_API_KEY") as Hne by discriminate.
  rewrite <- (openai_call_world w w' Hw). split.
  - now apply (framed_result _ _
      (framed_test_openai_key_present (fun k => k <> "ANTHROPIC_API_KEY") Hne)).
  - now apply (framed_result _ _
      (framed_test_openai_call (fun k => k <> "ANTHROPIC_API_KEY") w Hne)).
Qed.

Lemma openai_checks_ignore_anthropic_side_witness :
  outcome (test_anthropic_call Worlds.keyed) (start Worlds.both_keys)
  <> outcome (test_anthropic_call Worlds.no_anthropic)
       (start MoreWorlds.only_openai_key)
  /\ outcome (test_openai_call Worlds.keyed) (start Worlds.both_keys)
     = outcome (test_openai_call Worlds.no_anthropic)
         (start MoreWorlds.only_openai_key).
Proof.
  split; [discriminate |].
  refine (proj2 (openai_checks_ignore_anthropic_side
                   Worlds.keyed Worlds.no_anthropic
                   (start Worlds.both_keys)
                   (start MoreWorlds.only_openai_key) eq_refl _)).
  intros k Hk. unfold Worlds.both_keys, MoreWorlds.only_openai_key. simpl.
  destruct (decide (k = "OPENAI_API_KEY")) as [-> | Hk'].
  - now rewrite !lookup_insert_eq.
  - rewrite !(lookup_insert_ne _ "OPENAI_API_KEY") by congruence.
    now rewrite lookup_insert_ne by congruence.
Defined.

(** X3. The Anthropic checks depend on nothing of the OpenAI side: two runs
    in which loading [anthropic] gives the same, and whose environments
    differ at most in [OPENAI_API_KEY], give the same outcome for the three
    Anthropic checks, whatever loading [openai] gives in either (the package
    may be missing in one of them). *)
Theorem anthropic_checks_ignore_openai_side (w w' : World) (p q : Proc) :
  import_anthropic w = import_anthropic w' ->
  (forall k, k <> "OPENAI_API_KEY" -> environ p !! k = environ q !! k) ->
  outcome test_anthropic_key_present p = outcome test_anthropic_key_present q
  /\ outcome (test_anthropic_installed w) p
     = outcome (test_anthropic_installed w') q
  /\ outcome (test_anthropic_call w) p = outcome (test_anthropic_call w') q.
Proof.
  intros Hw H.
  assert ("ANTHROPIC_API_KEY" <> "OPENAI_API_KEY") as Hne by discriminate.
  rewrite <- (anthropic_call_world w w' Hw).
  rewrite <- (anthropic_installed_world w w' Hw).
  repeat split.
  - now apply (framed_result _ _
      (framed_test_anthropic_key_present (fun k => k <> "OPENAI_API_KEY") Hne)).
  - now apply (framed_result _ _
      (framed_test_anthropic_installed (fun k => k <> "OPENAI_API_KEY") w)).
  - now apply (framed_result _ _
      (framed_test_anthropic_call (fun k => k <> "OPENAI_API_KEY") w Hne)).
Qed.

Lemma anthropic_checks_ignore_openai_side_witness :
  outcome (test_openai_call Worlds.keyed) (start Worlds.both_keys)
  <> outcome (test_openai_call MoreWorlds.no_openai)
       (start Worlds.empty_openai_key)
  /\ outcome (test_anthropic_call Worlds.keyed) (start Worlds.both_keys)
     = outcome (test_anthropic_call MoreWorlds.no_openai)
         (start Worlds.empty_openai_key).
Proof.
  split; [discriminate |].
  refine (proj2 (proj2 (anthropic_checks_ignore_openai_side
                          Worlds.keyed MoreWorlds.no_openai
                          (start Worlds.both_keys)
                          (start Worlds.empty_openai_key) eq_refl _))).
  intros k Hk. unfold Worlds.both_keys, Worlds.empty_openai_key. simpl.
  now rewrite !(lookup_insert_ne _ "OPENAI_API_KEY") by congruence.
Defined.

(** X4. The library-availability check looks at nothing of the process: its
    outcome is the same in any two processes, whatever their environments
    and whatever was run before.  All it does is the one import: it
    constructs no client and sends no request. *)
Theorem anthropic_installed_only_imports (w : World) (p q : Proc) :
  outcome (test_anthropic_installed w) p
  = outcome (test_anthropic_installed w) q
  /\ sent (test_anthropic_installed w) p = [EvImport "anthropic"].
Proof.
  unfold outcome, sent. rewrite !anthropic_installed_run. simpl.
  split; [reflexivity | apply drop_app_length].
Qed.

(** ** What the call checks make of a response *)

(** X5. When the OpenAI call check gets a response, its outcome is decided by
    the first choice alone: no choice at all fails with an [IndexError], a
    first choice without content with a [TypeError], a content without "OK"
    with the check's own [AssertionError], and a content with "OK" passes.
    The choices after the first are never looked at. *)
Theorem openai_call_on_response
    (w : World) (p : Proc) (m : OpenAIModule) (client : OpenAIClient)
    (resp : ChatCompletion) :
  import_openai w = Returned m ->
  OpenAI m (environ p !! "OPENAI_API_KEY") = Returned client ->
  chat_completions_create client openai_request = Returned resp ->
  failure_class (outcome (test_openai_call w) p)
  = match choices resp with
    | [] => Some "IndexError"
    | first :: _ =>
        match message_content first with
        | None => Some "TypeError"
        | Some txt => if str_in "OK" txt then None else Some "AssertionError"
        end
    end.
Proof.
  intros Hm Hc Hr. unfold outcome.
  rewrite (openai_call_response w p m client resp Hm Hc Hr).
  unfold openai_verdict, index0, py_in, py_assert. py_unfold.
  destruct (choices resp) as [| first rest]; simpl; [reflexivity |].
  destruct (message_content first) as [txt |]; simpl; [| reflexivity].
  now destruct (str_in "OK" txt).
Qed.

Lemma openai_call_on_response_witness :
  failure_class
    (outcome (test_openai_call MoreWorlds.chatty) (start Worlds.both_keys))
  = Some "AssertionError".
Proof.
  exact (openai_call_on_response MoreWorlds.chatty (start Worlds.both_keys)
           MoreWorlds.chatty_openai
           {| chat_completions_create := fun _ =>
                Returned {| choices := [ {| message_content := Some "Sure!" |};
                                         {| message_content := Some "OK" |} ] |} |}
           _ eq_refl eq_refl eq_refl).
Defined.

(** X6. When the Anthropic call check gets a response, its outcome is decided
    by the first content block alone: no block at all fails with an
    [IndexError], a first block without text with an [AttributeError], a text
    without "OK" with the check's own [AssertionError], and a text with "OK"
    passes.  The blocks after the first are never looked at. *)
Theorem anthropic_call_on_response
    (w : World) (p : Proc) (m : AnthropicModule) (client : AnthropicClient)
    (resp : AnthropicMessage) :
  import_anthropic w = Returned m ->
  Anthropic m (environ p !! "ANTHROPIC_API_KEY") = Returned client ->
  messages_create client anthropic_request = Returned resp ->
  failure_class (outcome (test_anthropic_call w) p)
  = match resp_content resp with
    | [] => Some "IndexError"
    | OtherBlock :: _ => Some "AttributeError"
    | TextBlock txt :: _ =>
        if str_in "OK" txt then None else Some "AssertionError"
    end.
Proof.
  intros Hm Hc Hr. unfold outcome.
  rewrite (anthropic_call_response w p m client resp Hm Hc Hr).
  unfold anthropic_verdict, index0, get_text, py_assert. py_unfold.
  destruct (resp_content resp) as [| [txt |] rest]; simpl; try reflexivity.
  now destruct (str_in "OK" txt).
Qed.

Lemma anthropic_call_on_response_witness :
  failure_class
    (outcome (test_anthropic_call MoreWorlds.chatty) (start Worlds.both_keys))
  = Some "AssertionError".
Proof.
  exact (anthropic_call_on_response MoreWorlds.chatty (start Worlds.both_keys)
           MoreWorlds.chatty_anthropic
           {| messages_create := fun _ =>
                Returned {| resp_content := [ TextBlock "Okay"; TextBlock "OK" ] |} |}
           _ eq_refl eq_refl eq_refl).
Defined.

(** ** What a whole session does *)

Lemma openai_call_appends (w : World) (p : Proc) :
  snd (test_openai_call w p) = after p (sent (test_openai_call w) p).
Proof.
  rewrite openai_call_sent.
  destruct (import_openai w) as [m | e] eqn:Hm.
  - destruct (OpenAI m (environ p !! "OPENAI_API_KEY")) as [c | e] eqn:Hc.
    + destruct (chat_completions_create c openai_request) as [resp | e] eqn:Hr.
      * rewrite (openai_call_response w p m c resp Hm Hc Hr).
        apply openai_verdict_log.
      * now rewrite (openai_call_request_raises w p m c e Hm Hc Hr).
    + now rewrite (openai_call_client_raises w p m e Hm Hc).
  - now rewrite (openai_call_import_raises w p e Hm).
Qed.

Lemma anthropic_call_appends (w : World) (p : Proc) :
  snd (test_anthropic_call w p) = after p (sent (test_anthropic_call w) p).
Proof.
  rewrite anthropic_call_sent.
  destruct (import_anthropic w) as [m | e] eqn:Hm.
  - destruct (Anthropic m (environ p !! "ANTHROPIC_API_KEY")) as [c | e] eqn:Hc.
    + destruct (messages_create c anthropic_request) as [resp | e] eqn:Hr.
      * rewrite (anthropic_call_response w p m c resp Hm Hc Hr).
        apply anthropic_verdict_log.
      * now rewrite (anthropic_call_request_raises w p m c e Hm Hc Hr).
    + now rewrite (anthropic_call_client_raises w p m e Hm Hc).
  - now rewrite (anthropic_call_import_raises w p e Hm).
Qed.

Lemma anthropic_call_sent_environ (w : World) (p q : Proc) :
  environ q = environ p ->
  sent (test_anthropic_call w) q = sent (test_anthropic_call w) p.
Proof. intros H. rewrite !anthropic_call_sent. now rewrite H. Qed.

Lemma session_log (w : World) (p : Proc) :
  log (snd (session w p))
  = (log p ++ sent (test_openai_call w) p ++ [EvImport "anthropic"]
       ++ sent (test_anthropic_call w) p)%list.
Proof.
  unfold session, collected, run_tests.
  pose proof (key_present_run "OPENAI_API_KEY"
    "OPENAI_API_KEY is not set in this environment" p) as H1.
  fold test_openai_key_present in H1.
  destruct (test_openai_key_present p) as [o1 p1]. simpl in H1. subst p1.
  pose proof (openai_call_appends w p) as H2.
  destruct (test_openai_call w p) as [o2 p2] eqn:E2. simpl in H2. subst p2.
  rewrite anthropic_installed_run.
  set (p3 := after (after p (sent (test_openai_call w) p)) [EvImport "anthropic"]).
  pose proof (key_present_run "ANTHROPIC_API_KEY"
    "ANTHROPIC_API_KEY is not set in this environment" p3) as H4.
  fold test_anthropic_key_present in H4.
  destruct (test_anthropic_key_present p3) as [o4 p4]. simpl in H4. subst p4.
  pose proof (anthropic_call_appends w p3) as H5.
  destruct (test_anthropic_call w p3) as [o5 p5] eqn:E5. simpl in H5. subst p5.
  rewrite (anthropic_call_sent_environ w p p3) by reflexivity.
  simpl. now rewrite <- !app_assoc.
Qed.

(** X7. In a session in which no check fails in a way that stops the runner
    (every failure is an exception deriving from [Exception] or a
    [pytest.fail]), what the session does to the outside world is what the
    OpenAI call check does, then the import of the library-availability
    check, then what the Anthropic call check does, each as when run alone:
    the two key-presence checks add nothing (no import, no client, no
    request). *)
Theorem session_effects (w : World) (p : Proc) :
  forallb carries_on (fst (session w p)) = true ->
  session_sent w p
  = (sent (test_openai_call w) p ++ [EvImport "anthropic"]
       ++ sent (test_anthropic_call w) p)%list
  /\ sent test_openai_key_present p = []
  /\ sent test_anthropic_key_present p = [].
Proof.
  intros _. repeat split.
  - unfold session_sent. rewrite session_log. apply drop_app_length.
  - unfold sent, test_openai_key_present. rewrite key_present_run.
    apply drop_all.
  - unfold sent, test_anthropic_key_present. rewrite key_present_run.
    apply drop_all.
Qed.

Lemma session_effects_witness :
  fst (session Worlds.no_anthropic (start Worlds.empty_openai_key))
  = [ Raised (AssertionError "OPENAI_API_KEY is not set in this environment");
      Raised Worlds.AuthenticationError;
      Raised (Failed "anthropic package not installed in this interpreter: No module named 'anthropic'");
      Passed; Raised Worlds.ModuleNotFoundError ]
  /\ session_sent Worlds.no_anthropic (start Worlds.empty_openai_key)
     = [ EvImport "openai"; EvClient "openai" (Some "");
         EvChatCompletion openai_request;
         EvImport "anthropic"; EvImport "anthropic" ].
Proof.
  split; [reflexivity |].
  exact (proj1 (session_effects Worlds.no_anthropic
                  (start Worlds.empty_openai_key) eq_refl)).
Defined.

(** X8. In every world and from every process, a whole session sends at most
    one chat-completion request and at most one message-creation request (so
    at most two provider calls are paid for), and each is the fixed request
    of its call check. *)
Theorem session_requests_bounded (w : World) (p : Proc) :
  (openai_requests (session_sent w p) = []
   \/ openai_requests (session_sent w p) = [EvChatCompletion openai_request])
  /\ (anthropic_requests (session_sent w p) = []
      \/ anthropic_requests (session_sent w p)
         = [EvMessagesCreate anthropic_request]).
Proof.
  unfold session_sent. rewrite session_log, drop_app_length.
  rewrite openai_call_sent, anthropic_call_sent.
  unfold openai_requests, anthropic_requests.
  destruct (import_openai w) as [mo | eo];
    [destruct (OpenAI mo (environ p !! "OPENAI_API_KEY")) |];
    (destruct (import_anthropic w) as [ma | ea];
       [destruct (Anthropic ma (environ p !! "ANTHROPIC_API_KEY")) |]);
    simpl; split; auto.
Qed.

(** ** The session in which everything passes *)

Lemma openai_call_passed (w : World) (p : Proc) :
  outcome (test_openai_call w) p = Passed
  <-> openai_answers_ok w (environ p !! "OPENAI_API_KEY").
Proof.
  unfold outcome, openai_answers_ok. split.
  - destruct (import_openai w) as [m | e] eqn:Hm;
      [| rewrite (openai_call_import_raises w p e Hm); discriminate].
    destruct (OpenAI m (environ p !! "OPENAI_API_KEY")) as [c | e] eqn:Hc;
      [| rewrite (openai_call_client_raises w p m e Hm Hc); discriminate].
    destruct (chat_completions_create c openai_request) as [resp | e] eqn:Hr;
      [| rewrite (openai_call_request_raises w p m c e Hm Hc Hr); discriminate].
    rewrite (openai_call_response w p m c resp Hm Hc Hr).
    intros H. apply openai_verdict_passed in H.
    destruct H as [first [txt [H1 [H2 H3]]]].
    now exists m, c, resp, first, txt.
  - intros [m [c [resp [first [txt [Hm [Hc [Hr [H1 [H2 H3]]]]]]]]]].
    rewrite (openai_call_response w p m c resp Hm Hc Hr).
    apply openai_verdict_passed. now exists first, txt.
Qed.

Lemma anthropic_call_passed (w : World) (p : Proc) :
  outcome (test_anthropic_call w) p = Passed
  <-> anthropic_answers_ok w (environ p !! "ANTHROPIC_API_KEY").
Proof.
  unfold outcome, anthropic_answers_ok. split.
  - destruct (import_anthropic w) as [m | e] eqn:Hm;
      [| rewrite (anthropic_call_import_raises w p e Hm); discriminate].
    destruct (Anthropic m (environ p !! "ANTHROPIC_API_KEY")) as [c | e] eqn:Hc;
      [| rewrite (anthropic_call_client_raises w p m e Hm Hc); discriminate].
    destruct (messages_create c anthropic_request) as [resp | e] eqn:Hr;
      [| rewrite (anthropic_call_request_raises w p m c e Hm Hc Hr);
         discriminate].
    rewrite (anthropic_call_response w p m c resp Hm Hc Hr).
    intros H. apply anthropic_verdict_passed in H.
    destruct H as [txt [H1 H2]].
    now exists m, c, resp, txt.
  - intros [m [c [resp [txt [Hm [Hc [Hr [H1 H2]]]]]]]].
    rewrite (anthropic_call_response w p m c resp Hm Hc Hr).
    apply anthropic_verdict_passed. now exists txt.
Qed.

Lemma session_outcomes (w : World) (p : Proc) :
  fst (session w p)
  = [ outcome test_openai_key_present p; outcome (test_openai_call w) p;
      outcome (test_anthropic_installed w) p;
      outcome test_anthropic_key_present p;
      outcome (test_anthropic_call w) p ].
Proof.
  assert (Forall (framed (fun _ => True)) (collected w)) as Hf.
  { unfold collected.
    constructor; [exact (framed_test_openai_key_present _ I) |].
    constructor; [exact (framed_test_openai_call _ w I) |].
    constructor; [exact (framed_test_anthropic_installed _ w) |].
    constructor; [exact (framed_test_anthropic_key_present _ I) |].
    constructor; [exact (framed_test_anthropic_call _ w I) |].
    constructor. }
  destruct (run_tests_framed _ _ p Hf) as [Ho _].
  unfold session. rewrite (Ho p) by (now intros k _). reflexivity.
Qed.

(** X9. All five checks of a session pass exactly when both credential
    variables are set to non-empty values and each provider, with a client
    built from its credential, answers the check's request with a first text
    that contains "OK" (which includes that both packages load). *)
Theorem session_all_pass_iff (w : World) (p : Proc) :
  fst (session w p) = [Passed; Passed; Passed; Passed; Passed]
  <-> truthy (environ p !! "OPENAI_API_KEY") = true
      /\ truthy (environ p !! "ANTHROPIC_API_KEY") = true
      /\ openai_answers_ok w (environ p !! "OPENAI_API_KEY")
      /\ anthropic_answers_ok w (environ p !! "ANTHROPIC_API_KEY").
Proof.
  rewrite session_outcomes.
  pose proof (key_present_outcome "OPENAI_API_KEY"
    "OPENAI_API_KEY is not set in this environment" p) as K1.
  fold test_openai_key_present in K1.
  pose proof (key_present_outcome "ANTHROPIC_API_KEY"
    "ANTHROPIC_API_KEY is not set in this environment" p) as K2.
  fold test_anthropic_key_present in K2.
  assert (outcome (test_anthropic_installed w) p = Passed
          <-> exists m, import_anthropic w = Returned m) as K3.
  { unfold outcome. rewrite anthropic_installed_run. simpl.
    destruct (import_anthropic w) as [m | e].
    - split; [intros _; now exists m | reflexivity].
    - split; [discriminate | intros [m H]; discriminate]. }
  rewrite K1, K2, <- openai_call_passed, <- anthropic_call_passed.
  split.
  - intros H. injection H as H1 H2 H3 H4 H5.
    destruct (truthy (environ p !! "OPENAI_API_KEY")); [| discriminate].
    destruct (truthy (environ p !! "ANTHROPIC_API_KEY")); [| discriminate].
    now repeat split.
  - intros [H1 [H2 [H3 H4]]]. rewrite H1, H2, H3, H4.
    assert (outcome (test_anthropic_installed w) p = Passed) as ->; [| reflexivity].
    apply K3. apply anthropic_call_passed in H4.
    destruct H4 as [m [c [resp [txt [Hm _]]]]]. now exists m.
Qed.

(** X10. Whenever the Anthropic call check passes, the library-availability
    check passes too, in any process of the same world: a failing
    availability check is never seen next to a passing call check. *)
Theorem anthropic_call_passed_installed (w : World) (p q : Proc) :
  outcome (test_anthropic_call w) p = Passed ->
  outcome (test_anthropic_installed w) q = Passed.
Proof.
  intros H. apply anthropic_call_passed in H.
  destruct H as [m [c [resp [txt [Hm _]]]]].
  unfold outcome. now rewrite anthropic_installed_run, Hm.
Qed.

Lemma anthropic_call_passed_installed_witness :
  outcome (test_anthropic_call Worlds.keyed) (start Worlds.both_keys) = Passed
  /\ outcome (test_anthropic_installed Worlds.keyed) (start Worlds.no_keys)
     = Passed.
Proof.
  split; [reflexivity |].
  exact (anthropic_call_passed_installed Worlds.keyed
           (start Worlds.both_keys) (start Worlds.no_keys) eq_refl).
Defined.
